(** * Shallow embedding of [networks.py] (CycleGAN components on JAX/Flax)

    The file follows the source class by class: [ResnetBlock], [Generator],
    [Discriminator] and [GanLoss].

    - The networks are embedded at the level of tensor shapes: a layer is a
      function from the shape of its input (a batch of images, NHWC) to the
      shape of its output, or an exception.  The numbers inside the tensors
      depend on learned parameters and are not modelled.
    - [GanLoss] is embedded on tensors of real numbers: the formulas of
      [__call__] are taken with exact arithmetic, the one the floating-point
      operations approximate.  Rounding, overflow to infinity and
      not-a-number entries of float32 are outside this reading; every
      property of a loss value below is a property of the formula over the
      reals.
    - The methods [setup], [get_target_tensor] and [__call__] are embedded
      as functions of an instance whose attributes are set; the two
      constructors the source writes by hand ([Discriminator.__init__] and
      [GanLoss.__init__]) are embedded separately.
    - Python exceptions are values of [exn]; a function that may raise returns
      a [result]. *)

From Stdlib Require Import ZArith List String Bool Lia QArith Reals Lra.
Import ListNotations.
Local Open Scope string_scope.
Local Open Scope list_scope.
Local Open Scope Z_scope.

(** ** Exceptions and the error monad *)

Inductive exn : Type :=
| TypeError
| ValueError
| AttributeError
| NotImplementedError
| UnboundLocalError.

Inductive result (A : Type) : Type :=
| Ok (a : A)
| Err (e : exn).
Arguments Ok {A} a.
Arguments Err {A} e.

Definition bind {A B : Type} (r : result A) (k : A -> result B) : result B :=
  match r with
  | Ok a => k a
  | Err e => Err e
  end.

Notation "x <- e ;; k" := (bind e (fun x => k))
  (at level 61, e at next level, right associativity).

(** ** Python values, truthiness, [or], attribute stores *)

Inductive pyval : Type :=
| PInt (z : Z)
| PBool (b : bool)
| PStr (s : string)
| PList (l : list Z).

(** [bool(v)]: zero, [False], the empty string and the empty list are
    falsy. *)
Definition truthy (v : pyval) : bool :=
  match v with
  | PInt z => negb (z =? 0)
  | PBool b => b
  | PStr s => negb (String.eqb s "")
  | PList l => match l with [] => false | _ :: _ => true end
  end.

(** [a or b] yields [a] when [a] is truthy and [b] otherwise. *)
Definition py_or (a b : pyval) : pyval := if truthy a then a else b.

(** [s in l] for a list of strings. *)
Definition py_in (s : string) (l : list string) : bool :=
  existsb (String.eqb s) l.

Fixpoint lookup {A : Type} (k : string) (l : list (string * A)) : option A :=
  match l with
  | [] => None
  | (k', v) :: l' => if String.eqb k k' then Some v else lookup k l'
  end.

(** The attributes of an instance of a dataclass-style module: the declared
    fields with the values given at construction. *)
Definition instance : Type := list (string * pyval).

(** [self.name]: an attribute that was never declared or assigned raises
    [AttributeError]. *)
Definition getattr (self : instance) (name : string) : result pyval :=
  match lookup name self with
  | Some v => Ok v
  | None => Err AttributeError
  end.

(** The generated constructor of a class whose declared fields are [fields]
    (none with a default), called with positional arguments only: a missing
    or a surplus argument is a [TypeError]. *)
Definition dataclass_new (fields : list string) (args : list pyval)
  : result instance :=
  if Nat.eqb (List.length args) (List.length fields) then Ok (combine fields args)
  else Err TypeError.

(** [range(lo, hi)] and [range(n)]. *)
Definition range2 (lo hi : nat) : list nat := seq lo (hi - lo).
Definition range (n : nat) : list nat := range2 0 n.

(** A [for] loop whose body may raise: the accumulator is threaded through
    the iterations and the first exception ends the loop. *)
Fixpoint for_each {A S : Type} (xs : list A) (body : S -> A -> result S) (s : S)
  : result S :=
  match xs with
  | [] => Ok s
  | x :: xs' => s' <- body s x ;; for_each xs' body s'
  end.

(** ** Layers and their effect on shapes *)

(** A batch of images, channels last. *)
Record shape : Type := NHWC { batch : Z; height : Z; width : Z; channels : Z }.

(** Padding of a convolution: Flax's default ['SAME'], or the same explicit
    amount [p] before and after each spatial axis ([padding=p],
    [padding=[(p, p), (p, p)]]). *)
Inductive padding : Type :=
| SAME
| Pad (p : Z).

(** The kernel of a convolution, in the two forms the source passes:
    [kernel_size=[kh, kw]] is a kernel over the two spatial axes, and a
    single number [kernel_size=k] is a kernel [(k,)] over one axis, the last
    before the channels. *)
Inductive kernel : Type :=
| Kernel1 (k : Z)
| Kernel2 (kh kw : Z).

(** The layers the source uses.  One stride serves every axis of the kernel.
    [GroupNorm] has the two fields [num_groups] (32 unless given) and
    [group_size] (unset unless given). *)
Inductive layer : Type :=
| Conv (features : Z) (kernel_size : kernel) (strides : Z) (pad : padding)
| ConvTranspose (features : Z) (kernel_size : kernel) (strides : Z) (pad : padding)
| GroupNorm (num_groups group_size : option Z)
| relu
| tanh
| PReLU (negative_slope_init : Q)
| Dropout (rate : Q).

(** Fields accepted by the constructors [nn.Conv] and [nn.ConvTranspose]
    among those the source passes; [strides] is the name of the stride. *)
Definition Conv_fields : list string :=
  ["features"; "kernel_size"; "strides"; "padding"; "use_bias"].

Definition kw_int (k : string) (kw : list (string * pyval)) : option Z :=
  match lookup k kw with
  | Some (PInt z) => Some z
  | _ => None
  end.

(** The value of [kernel_size]: a number or a list of one or two numbers. *)
Definition kw_kernel (kw : list (string * pyval)) : option kernel :=
  match lookup "kernel_size" kw with
  | Some (PInt k) => Some (Kernel1 k)
  | Some (PList [k]) => Some (Kernel1 k)
  | Some (PList [kh; kw']) => Some (Kernel2 kh kw')
  | _ => None
  end.

Definition kw_known (kw : list (string * pyval)) : bool :=
  forallb (fun p => py_in (fst p) Conv_fields) kw.

(** Construction of a convolution from keyword arguments.  A keyword that is
    not a field is a [TypeError], as is a missing [features] or
    [kernel_size]; [strides] defaults to 1 and [padding] to ['SAME']. *)
Definition conv_args (kw : list (string * pyval))
  : result (Z * kernel * Z * padding) :=
  if kw_known kw then
    match kw_int "features" kw, kw_kernel kw with
    | Some f, Some k =>
        let s := match kw_int "strides" kw with Some s => s | None => 1 end in
        let p := match kw_int "padding" kw with Some p => Pad p | None => SAME end in
        Ok (f, k, s, p)
    | _, _ => Err TypeError
    end
  else Err TypeError.

Definition nn_Conv (kw : list (string * pyval)) : result layer :=
  a <- conv_args kw ;;
  let '(f, k, s, p) := a in Ok (Conv f k s p).

Definition nn_ConvTranspose (kw : list (string * pyval)) : result layer :=
  a <- conv_args kw ;;
  let '(f, k, s, p) := a in Ok (ConvTranspose f k s p).

(** Output extent of a convolution along one spatial axis of extent [h]:
    the padded extent is cut into windows of size [k] every [s] positions
    (floor division), and an extent that would be negative is 0. *)
Definition conv_dim (k s : Z) (pad : padding) (h : Z) : Z :=
  match pad with
  | Pad p => Z.max 0 ((h + 2 * p - k) / s + 1)
  | SAME => (h + s - 1) / s
  end.

(** Extent of an axis after inserting [s - 1] holes between its elements. *)
Definition dilate_dim (s h : Z) : Z :=
  if h =? 0 then 0 else 1 + s * (h - 1).

(** Output extent of a transposed convolution: with explicit padding it is a
    stride-1 convolution over the dilated, padded input. *)
Definition conv_transpose_dim (k s : Z) (pad : padding) (h : Z) : Z :=
  match pad with
  | Pad p => Z.max 0 (dilate_dim s h + 2 * p - k + 1)
  | SAME => h * s
  end.

(** [nn.GroupNorm(group_size=s)]: [num_groups] keeps its default 32. *)
Definition nn_GroupNorm_group_size (s : Z) : layer :=
  GroupNorm (Some 32) (Some s).

(** Applying [GroupNorm]: exactly one of [num_groups] and [group_size] must
    be set, and it must divide the number of channels; otherwise
    [ValueError]. *)
Definition apply_GroupNorm (num_groups group_size : option Z) (x : shape)
  : result shape :=
  match num_groups, group_size with
  | Some g, None | None, Some g =>
      if (0 <? g) && (channels x mod g =? 0) then Ok x else Err ValueError
  | Some _, Some _ | None, None => Err ValueError
  end.

Definition apply_layer (l : layer) (x : shape) : result shape :=
  match l with
  | Conv f (Kernel2 kh kw) s p =>
      Ok (NHWC (batch x) (conv_dim kh s p (height x))
               (conv_dim kw s p (width x)) f)
  | Conv f (Kernel1 k) s p =>
      Ok (NHWC (batch x) (height x) (conv_dim k s p (width x)) f)
  | ConvTranspose f (Kernel2 kh kw) s p =>
      Ok (NHWC (batch x) (conv_transpose_dim kh s p (height x))
               (conv_transpose_dim kw s p (width x)) f)
  | ConvTranspose f (Kernel1 k) s p =>
      Ok (NHWC (batch x) (height x) (conv_transpose_dim k s p (width x)) f)
  | GroupNorm num_groups group_size => apply_GroupNorm num_groups group_size x
  | relu | tanh | PReLU _ | Dropout _ => Ok x
  end.

(** Broadcasting of one axis in an elementwise operation. *)
Definition broadcast_dim (a b : Z) : result Z :=
  if a =? b then Ok a
  else if a =? 1 then Ok b
  else if b =? 1 then Ok a
  else Err TypeError.

(** Shape of [x + y] for two batches of images; incompatible extents raise. *)
Definition add_shape (x y : shape) : result shape :=
  n <- broadcast_dim (batch x) (batch y) ;;
  h <- broadcast_dim (height x) (height y) ;;
  w <- broadcast_dim (width x) (width y) ;;
  c <- broadcast_dim (channels x) (channels y) ;;
  Ok (NHWC n h w c).

(** [nn.Sequential(layers=...)] of plain layers applied to an input: the
    layers run in order, and the first exception ends the run; a sequence
    without layers raises [ValueError]. *)
Definition Sequential_layers (model : list layer) (x : shape) : result shape :=
  match model with
  | [] => Err ValueError
  | _ :: _ => for_each model (fun s l => apply_layer l s) x
  end.

(** [nn.Sequential( *args )]: the class declares the single field [layers],
    so the constructor takes one positional argument, the sequence of
    layers.  Spreading a list of layers over the positional arguments is a
    [TypeError] unless the list has one element, and then that element, a
    layer, is not a sequence: [ValueError]. *)
Definition nn_Sequential_star {A : Type} (args : list A) : result (list A) :=
  match args with
  | [_] => Err ValueError
  | _ => Err TypeError
  end.

(** ** class ResnetBlock *)

(** The class declares the single field [features]. *)
Definition ResnetBlock_fields : list string := ["features"].

Definition ResnetBlock_new (args : list pyval) : result instance :=
  dataclass_new ResnetBlock_fields args.

Definition ResnetBlock_setup (self : instance) : result (list layer) :=
  f <- getattr self "features" ;;
  c1 <- nn_Conv [("features", f); ("kernel_size", PList [3; 3]);
                 ("padding", PInt 1)] ;;
  let model := [c1; nn_GroupNorm_group_size 1; relu] in
  d <- getattr self "use_dropout" ;;
  let model := if truthy d then model ++ [Dropout (1 # 2)] else model in
  f' <- getattr self "features" ;;
  c2 <- nn_Conv [("features", f'); ("kernel_size", PList [3; 3]);
                 ("padding", PInt 1)] ;;
  let model := model ++ [c2; nn_GroupNorm_group_size 1] in
  nn_Sequential_star model.

(** [__call__]: the module is set up before the body runs. *)
Definition ResnetBlock_call (self : instance) (input : shape) : result shape :=
  model <- ResnetBlock_setup self ;;
  out <- Sequential_layers model input ;;
  add_shape input out.

(** ** class Generator *)

Inductive module : Type :=
| Layer (l : layer)
| Block (b : instance).

Definition apply_module (m : module) (x : shape) : result shape :=
  match m with
  | Layer l => apply_layer l x
  | Block b => ResnetBlock_call b x
  end.

(** [nn.Sequential] of layers and blocks, applied in order; a sequence
    without layers raises [ValueError]. *)
Definition Sequential (model : list module) (x : shape) : result shape :=
  match model with
  | [] => Err ValueError
  | _ :: _ => for_each model (fun s m => apply_module m s) x
  end.

Record Generator : Type := {
  output_nc : Z;
  ngf : Z;
  n_res_blocks : nat;
  use_dropout : bool
}.

Definition n_downsample_layers : nat := 2.

Definition Generator_setup (self : Generator) : result (list module) :=
  c <- nn_Conv [("features", PInt (ngf self)); ("kernel_size", PList [7; 7]);
                ("padding", PInt 3)] ;;
  let model := [Layer c; Layer (nn_GroupNorm_group_size 1); Layer relu] in
  (* Downsampling layers. *)
  model <- for_each (range n_downsample_layers)
             (fun model i =>
                let mult := 2 ^ Z.of_nat i in
                c <- nn_Conv [("features", PInt (ngf self * mult * 2));
                              ("kernel_size", PList [3; 3]); ("strides", PInt 2);
                              ("padding", PInt 1)] ;;
                Ok (model ++ [Layer c; Layer (nn_GroupNorm_group_size 1);
                              Layer relu]))
             model ;;
  (* Resnet transformation blocks. *)
  let mult := 2 ^ Z.of_nat n_downsample_layers in
  model <- for_each (range (n_res_blocks self))
             (fun model i =>
                b <- ResnetBlock_new [PInt (ngf self * mult);
                                      PBool (use_dropout self)] ;;
                Ok (model ++ [Block b]))
             model ;;
  (* Upsampling layers. *)
  model <- for_each (range n_downsample_layers)
             (fun model i =>
                let mult := 2 ^ Z.of_nat (n_downsample_layers - i) in
                c <- nn_ConvTranspose [("features", PInt ((ngf self * mult) / 2));
                                       ("kernel_size", PList [3; 3]);
                                       ("strides", PInt 2); ("padding", PInt 1)] ;;
                Ok (model ++ [Layer c; Layer (nn_GroupNorm_group_size 1);
                              Layer relu]))
             model ;;
  c <- nn_Conv [("features", PInt (output_nc self)); ("kernel_size", PList [7; 7]);
                ("padding", PInt 0)] ;;
  let model := model ++ [Layer c] in
  let model := model ++ [Layer tanh] in
  nn_Sequential_star model.

(** [__call__]: skip connection between generator input and output. *)
Definition Generator_call (self : Generator) (input : shape) : result shape :=
  model <- Generator_setup self ;;
  out <- Sequential model input ;;
  add_shape input out.


(** ** class Discriminator *)

Record Discriminator : Type := {
  ndf : Z;
  netD : string;
  n_layers : nat;
  norm : string;
  init_type : string;
  init_gain : Q
}.

(** An axis of an array of rank [ndim] must lie in [-ndim, ndim); anything
    else raises. *)
Definition canonicalize_axis (axis ndim : Z) : result Z :=
  if (- ndim <=? axis) && (axis <? ndim)
  then Ok (if axis <? 0 then axis + ndim else axis)
  else Err ValueError.

(** [jnp.min(a, axis)] for a Python number [a]: the second positional
    parameter of [jnp.min] is the axis to reduce along, and a number is an
    array of rank 0.  (The minimum of two numbers is Python's [min] or
    [jnp.minimum].) *)
Definition jnp_min (a axis : Z) : result Z :=
  _ <- canonicalize_axis axis 0 ;;
  Ok a.

(** The test of the first branch of [setup]:
    [self.netD == "n_layers" or "basic"], which Python reads as
    [(self.netD == "n_layers") or "basic"]. *)
Definition n_layers_test (self : Discriminator) : pyval :=
  py_or (PBool (String.eqb (netD self) "n_layers")) (PStr "basic").

(** The branch that builds the N-layer discriminator (lines 124-143). *)
Definition Discriminator_n_layers_branch (self : Discriminator) (use_bias : bool)
  : result (list layer) :=
  let kw := 4 in
  let padw := 1 in
  c <- nn_Conv [("features", PInt (ndf self)); ("kernel_size", PInt kw);
                ("strides", PInt 2); ("padding", PInt padw)] ;;
  let sequence := [c; PReLU (2 # 10)] in
  let nf_mult := 1 in
  st <- for_each (range2 1 (n_layers self))
          (fun st n =>
             nf_mult <- jnp_min (2 ^ Z.of_nat n) 8 ;;
             c <- nn_Conv [("features", PInt (ndf self * nf_mult));
                           ("kernel_size", PInt kw); ("strides", PInt 2);
                           ("padding", PInt padw); ("use_bias", PBool use_bias)] ;;
             Ok (fst st ++ [c; nn_GroupNorm_group_size 1; PReLU (2 # 10)], nf_mult))
          (sequence, nf_mult) ;;
  let sequence := fst st in
  nf_mult <- jnp_min (2 ^ Z.of_nat (n_layers self)) 8 ;;
  c <- nn_Conv [("features", PInt (ndf self * nf_mult));
                ("kernel_size", PInt kw); ("strides", PInt 2);
                ("padding", PInt padw); ("use_bias", PBool use_bias)] ;;
  let sequence := sequence ++ [c; nn_GroupNorm_group_size 1; PReLU (2 # 10)] in
  c <- nn_Conv [("features", PInt 1); ("kernel_size", PInt kw);
                ("strides", PInt 1); ("padding", PInt padw)] ;;
  Ok (sequence ++ [c]).

(** The branch that builds the per-pixel discriminator (lines 146-152); its
    first convolution is given the keyword [stride]. *)
Definition Discriminator_pixel_branch (self : Discriminator) (use_bias : bool)
  : result (list layer) :=
  c1 <- nn_Conv [("features", PInt (ndf self)); ("kernel_size", PInt 1);
                 ("stride", PInt 1); ("padding", PInt 0)] ;;
  c2 <- nn_Conv [("features", PInt (ndf self * 2)); ("kernel_size", PInt 1);
                 ("strides", PInt 1); ("padding", PInt 0);
                 ("use_bias", PBool use_bias)] ;;
  c3 <- nn_Conv [("features", PInt 1); ("kernel_size", PInt 1);
                 ("strides", PInt 1); ("padding", PInt 0);
                 ("use_bias", PBool use_bias)] ;;
  Ok [c1; PReLU (2 # 10); c2; nn_GroupNorm_group_size 1; PReLU (2 # 10); c3].

(** [setup] returns the value of [self.model], [None] when no branch assigns
    it.  In the last branch the source builds a [NotImplementedError] and
    drops it: there is no [raise]. *)
Definition Discriminator_setup (self : Discriminator)
  : result (option (list layer)) :=
  let use_bias := false in
  if truthy (n_layers_test self) then
    sequence <- Discriminator_n_layers_branch self use_bias ;;
    Ok (Some sequence)
  else if String.eqb (netD self) "pixel" then
    sequence <- Discriminator_pixel_branch self use_bias ;;
    Ok (Some sequence)
  else
    Ok None.

(** An instance of the class: the attributes [__init__] assigns, and
    [self.model], which only [setup] assigns. *)
Record DiscriminatorInstance : Type := {
  attributes : Discriminator;
  model : option (list layer)
}.

(** [__init__] (lines 98-116) assigns the six configuration attributes and
    nothing else.  The class replaces the constructor Flax generates, so no
    [setup] is run on the instance it builds: [self.model] stays unset. *)
Definition Discriminator_init (ndf0 : Z) (netD0 : string) (n_layers0 : nat)
  (norm0 init_type0 : string) (init_gain0 : Q) : DiscriminatorInstance :=
  {| attributes := {| ndf := ndf0; netD := netD0; n_layers := n_layers0;
                      norm := norm0; init_type := init_type0;
                      init_gain := init_gain0 |};
     model := None |}.

(** [__call__] (lines 157-158): [self.model(input)]; reading the unset
    attribute raises [AttributeError]. *)
Definition Discriminator_call (self : DiscriminatorInstance) (input : shape)
  : result shape :=
  match model self with
  | Some layers => Sequential_layers layers input
  | None => Err AttributeError
  end.

(** ** class GanLoss *)

(** A tensor: its shape and its entries in row-major order. *)
Record tensor : Type := Tensor { tshape : list nat; data : list R }.

(** The value of a reduction: a real number, or the not-a-number that
    [jnp.mean] yields for an array without entries (0 divided by 0). *)
Inductive num : Type :=
| NaN
| Num (r : R).

Definition num_neg (n : num) : num :=
  match n with
  | NaN => NaN
  | Num r => Num (- r)%R
  end.

Definition Rsum (l : list R) : R := fold_right Rplus 0%R l.

Definition mean_list (l : list R) : num :=
  match l with
  | [] => NaN
  | _ :: _ => Num (Rsum l / INR (List.length l))%R
  end.

(** [jnp.mean(t)] *)
Definition jnp_mean (t : tensor) : num := mean_list (data t).

(** Elementwise operations.  [tzip] combines two tensors of one shape entry
    by entry, which is the only case [__call__] needs: all its operands are
    [prediction] or are derived from it entry by entry. *)
Definition tmap (f : R -> R) (t : tensor) : tensor :=
  Tensor (tshape t) (map f (data t)).

Fixpoint zip_with (f : R -> R -> R) (a b : list R) : list R :=
  match a, b with
  | x :: a', y :: b' => f x y :: zip_with f a' b'
  | _, _ => []
  end.

Definition tzip (f : R -> R -> R) (a b : tensor) : tensor :=
  Tensor (tshape a) (zip_with f (data a) (data b)).

Definition tadd : tensor -> tensor -> tensor := tzip Rplus.
Definition tsub : tensor -> tensor -> tensor := tzip Rminus.
Definition tmul : tensor -> tensor -> tensor := tzip Rmult.
Definition tneg : tensor -> tensor := tmap Ropp.
Definition tsquare : tensor -> tensor := tmap (fun x => x ^ 2)%R.
Definition jnp_exp : tensor -> tensor := tmap exp.
Definition jnp_log : tensor -> tensor := tmap ln.

(** [jnp.clip(t, lo, None)]: entries below [lo] are raised to [lo]. *)
Definition jnp_clip_min (t : tensor) (lo : R) : tensor :=
  tmap (fun x => Rmax x lo) t.

(** [jnp.ones_like(a)] *)
Definition jnp_ones_like (a : tensor) : tensor :=
  Tensor (tshape a) (map (fun _ => 1%R) (data a)).

(** [c * t] for a Python number [c]. *)
Definition scalar_mul (c : R) (t : tensor) : tensor := tmap (Rmult c) t.

Record GanLoss : Type := {
  gan_mode : string;
  target_real_label : R;
  target_fake_label : R
}.

Definition GanLoss_setup (self : GanLoss) : result unit :=
  if negb (py_in (gan_mode self) ["lsgan"; "vanila"; "wgangp"])
  then Err NotImplementedError
  else Ok tt.

Definition get_target_tensor (self : GanLoss) (prediction : tensor)
  (target_is_real : bool) : tensor :=
  let target_label :=
    if target_is_real then target_real_label self else target_fake_label self in
  let target := jnp_ones_like prediction in
  scalar_mul target_label target.

Definition shape_eq_dec : forall a b : list nat, {a = b} + {a <> b} :=
  list_eq_dec Nat.eq_dec.

(** [max_val = jnp.clip(-prediction, 0, None)] (line 214). *)
Definition vanila_max_val (prediction : tensor) : tensor :=
  jnp_clip_min (tneg prediction) 0.

(** [__call__].  The local [loss_value] starts unbound ([None]); returning it
    while it is unbound raises [UnboundLocalError]. *)
Definition GanLoss_call (self : GanLoss) (prediction : tensor)
  (target_is_real : bool) : result num :=
  let target_array := get_target_tensor self prediction target_is_real in
  let loss_value : option num := None in
  let loss_value :=
    if py_in (gan_mode self) ["lsgan"]
    then Some (jnp_mean (tsquare (tsub prediction target_array)))
    else loss_value in
  loss_value <-
    (if py_in (gan_mode self) ["vanila"] then
       if shape_eq_dec (tshape target_array) (tshape prediction) then
         let max_val := vanila_max_val prediction in
         let loss_value :=
           tadd (tadd (tsub prediction (tmul prediction target_array)) max_val)
                (jnp_log (tadd (jnp_exp (tneg max_val))
                               (jnp_exp (tsub (tneg prediction) max_val)))) in
         Ok (Some (jnp_mean loss_value))
       else Err ValueError
     else if py_in (gan_mode self) ["wgangp"] then
       if target_is_real then Ok (Some (num_neg (jnp_mean prediction)))
       else Ok (Some (jnp_mean prediction))
     else Ok loss_value) ;;
  match loss_value with
  | Some v => Ok v
  | None => Err UnboundLocalError
  end.

(** What [super] can be given as its single argument: a class, or an
    instance of a class. *)
Inductive pyobj : Type :=
| PyClass (name : string)
| PyInstance (class_name : string).

(** [super(x)] with one argument: [x] must be a class; given an instance it
    raises [TypeError]. *)
Definition py_super (x : pyobj) : result unit :=
  match x with
  | PyClass _ => Ok tt
  | PyInstance _ => Err TypeError
  end.

(** [__init__] (lines 168-180): its first statement is
    [super(self).__init__()], with the instance where the class belongs; the
    three assignments follow it. *)
Definition GanLoss_init (mode : string) (real_label fake_label : R)
  : result GanLoss :=
  _ <- py_super (PyInstance "GanLoss") ;;
  Ok {| gan_mode := mode; target_real_label := real_label;
        target_fake_label := fake_label |}.


(** The entry of the vanilla loss for a logit [x] and a label [z], as
    [__call__] computes it entry by entry, with [max_val = max(-x, 0)]. *)
Definition vanila_entry (x z : R) : R :=
  (x - x * z + Rmax (- x) 0
   + ln (exp (- Rmax (- x) 0) + exp (- x - Rmax (- x) 0)))%R.

(** ** Definitions that follow the wording of the specification *)

(** Mean squared error between two arrays, as the specification words the
    lsgan loss: the average over the entries of the squared difference. *)
Definition mean_squared_error (p t : list R) : num :=
  match p with
  | [] => NaN
  | _ :: _ =>
      Num (Rsum (zip_with (fun a b => (a - b) * (a - b)) p t)
           / INR (List.length p))%R
  end.

(** Binary cross-entropy with logits for a logit [x] and a label [z], in the
    form the specification gives. *)
Definition bce_with_logits (x z : R) : R :=
  (Rmax x 0 - x * z + ln (1 + exp (- Rabs x)))%R.

(** The spatial extent the generator's layers produce from an extent [h]:
    the 7x7 convolution with padding 3, two stride-2 convolutions, two
    stride-2 transposed convolutions, the 7x7 convolution without padding. *)
Definition generator_extent (h : Z) : Z :=
  conv_dim 7 1 (Pad 0)
    (conv_transpose_dim 3 2 (Pad 1)
       (conv_transpose_dim 3 2 (Pad 1)
          (conv_dim 3 2 (Pad 1) (conv_dim 3 2 (Pad 1) (conv_dim 7 1 (Pad 3) h))))).

(** Concrete configurations used in the examples. *)
Definition generator_no_blocks : Generator :=
  {| output_nc := 3; ngf := 64; n_res_blocks := 0; use_dropout := true |}.

Definition generator_default : Generator :=
  {| output_nc := 3; ngf := 64; n_res_blocks := 6; use_dropout := true |}.

Definition discriminator_of (name : string) : Discriminator :=
  {| ndf := 64; netD := name; n_layers := 3; norm := "batch";
     init_type := "normal"; init_gain := 2 # 100 |}.

Definition gan_loss_of (mode : string) : GanLoss :=
  {| gan_mode := mode; target_real_label := 1; target_fake_label := 0 |}.

Definition empty_prediction : tensor := Tensor [0%nat] [].

(** * Properties *)

(** Evaluation of a [setup] whose configuration is symbolic: the list
    building is computed, the arithmetic on sizes is left as written. *)
Ltac run_setup :=
  cbn -[Z.mul Z.div Z.add Z.sub Z.max Z.pow Z.eqb Z.ltb Z.leb Z.opp
        conv_dim conv_transpose_dim add_shape].

(** ** Generator and ResnetBlock *)

(** The 7x7 convolution with padding 3 keeps a spatial extent. *)
Lemma conv_dim_7_pad_3 (h : Z) : 0 <= h -> conv_dim 7 1 (Pad 3) h = h.
Proof. intros Hh. unfold conv_dim. rewrite Z.div_1_r. lia. Qed.

(** A stride-2 3x3 convolution with padding 1 halves an extent, rounding up. *)
Lemma conv_dim_stride_2 (h : Z) :
  1 <= h ->
  1 <= conv_dim 3 2 (Pad 1) h /\ 2 * conv_dim 3 2 (Pad 1) h <= h + 1.
Proof. intros Hh. unfold conv_dim. Z.div_mod_to_equations. lia. Qed.

(** A stride-2 3x3 transposed convolution with padding 1 maps [h] to
    [2 h - 1]: one short of doubling. *)
Lemma conv_transpose_dim_stride_2 (h : Z) :
  1 <= h -> conv_transpose_dim 3 2 (Pad 1) h = 2 * h - 1.
Proof.
  intros Hh. unfold conv_transpose_dim, dilate_dim.
  destruct (h =? 0) eqn:E; lia.
Qed.

(** The 7x7 convolution without padding removes 6 from an extent. *)
Lemma conv_dim_7_pad_0 (h : Z) : conv_dim 7 1 (Pad 0) h = Z.max 0 (h - 6).
Proof. unfold conv_dim. rewrite Z.div_1_r. f_equal. lia. Qed.

(** The convolutions the generator lists, composed, return a smaller extent
    than they are given, and never the extent 1 that broadcasting accepts. *)
Lemma generator_extent_shrinks (h : Z) :
  1 <= h -> generator_extent h < h /\ generator_extent h <> 1.
Proof.
  intros Hh. unfold generator_extent.
  rewrite (conv_dim_7_pad_3 h) by lia.
  destruct (conv_dim_stride_2 h Hh) as [Ha1 Ha2].
  set (a := conv_dim 3 2 (Pad 1) h) in *.
  destruct (conv_dim_stride_2 a Ha1) as [Hb1 Hb2].
  set (b := conv_dim 3 2 (Pad 1) a) in *.
  rewrite (conv_transpose_dim_stride_2 b) by lia.
  rewrite (conv_transpose_dim_stride_2 (2 * b - 1)) by lia.
  rewrite conv_dim_7_pad_0. lia.
Qed.

Example generator_extent_16 : generator_extent 16 = 7.
Proof. reflexivity. Qed.

(** [setup] raises [TypeError] for every configuration: with residual
    blocks when it constructs [ResnetBlock] with two positional arguments
    (line 48), without them when it spreads its seventeen layers over the
    positional arguments of [nn.Sequential] (line 61). *)
Lemma Generator_setup_raises (self : Generator) :
  Generator_setup self = Err TypeError.
Proof.
  unfold Generator_setup.
  destruct (n_res_blocks self) as [| k]; run_setup; reflexivity.
Qed.

(** C1 (defect in the code).  For every configuration of the generator and
    every batch of images of height at least 1, [Generator.__call__] does not
    return a tensor of the shape of its input: either it raises, or (for
    height 1) what it returns has another shape.  The claim that the output
    shape equals the input shape fails on every such input. *)
Theorem Generator_call_never_input_shape (self : Generator) (x : shape) :
  1 <= height x -> Generator_call self x <> Ok x.
Proof.
  intros Hh. unfold Generator_call. rewrite Generator_setup_raises.
  discriminate.
Qed.

Lemma Generator_call_never_input_shape_witness :
  1 <= height (NHWC 1 16 16 3)
  /\ Generator_call generator_no_blocks (NHWC 1 16 16 3) <> Ok (NHWC 1 16 16 3).
Proof.
  split.
  - cbn. lia.
  - apply (Generator_call_never_input_shape generator_no_blocks (NHWC 1 16 16 3)).
    cbn. lia.
Defined.

(** With or without residual blocks, the call on a 16x16 image raises. *)
Example Generator_call_16 :
  Generator_call generator_no_blocks (NHWC 1 16 16 3) = Err TypeError
  /\ Generator_call generator_default (NHWC 1 16 16 3) = Err TypeError.
Proof.
  unfold Generator_call. rewrite !Generator_setup_raises. split; reflexivity.
Qed.

(** C2 (defect in the code).  A [ResnetBlock] constructed with its declared
    field [features] raises [AttributeError] on every input: [setup] reads
    [self.use_dropout], which the class does not declare, so the block never
    returns the input plus its pipeline's output. *)
Theorem ResnetBlock_call_raises (f : Z) (input : shape) :
  (self <- ResnetBlock_new [PInt f] ;; ResnetBlock_call self input)
  = Err AttributeError.
Proof. reflexivity. Qed.

Example ResnetBlock_call_8x8 :
  (self <- ResnetBlock_new [PInt 4] ;; ResnetBlock_call self (NHWC 1 8 8 4))
  = Err AttributeError.
Proof. reflexivity. Qed.

(** An instance that does carry an attribute [use_dropout] gets past line 81
    and raises at line 87, where the five or six layers are spread over the
    positional arguments of [nn.Sequential]. *)
Lemma ResnetBlock_setup_with_use_dropout (f : Z) (d : bool) :
  ResnetBlock_setup [("features", PInt f); ("use_dropout", PBool d)]
  = Err TypeError.
Proof. destruct d; reflexivity. Qed.

(** ** Discriminator *)

(** A Python number has no axis to reduce along. *)
Lemma jnp_min_raises (a axis : Z) : jnp_min a axis = Err ValueError.
Proof.
  unfold jnp_min, canonicalize_axis.
  destruct (- 0 <=? axis) eqn:E1; destruct (axis <? 0) eqn:E2; cbn;
    try reflexivity.
  apply Z.leb_le in E1. apply Z.ltb_lt in E2. lia.
Qed.

(** The test of the first branch is truthy for every architecture name:
    when the comparison is false, [or] yields the non-empty string
    ["basic"]. *)
Lemma n_layers_test_truthy (self : Discriminator) :
  truthy (n_layers_test self) = true.
Proof.
  unfold n_layers_test, py_or.
  destruct (String.eqb (netD self) "n_layers"); reflexivity.
Qed.

Lemma Discriminator_n_layers_branch_raises (self : Discriminator) (use_bias : bool) :
  Discriminator_n_layers_branch self use_bias = Err ValueError.
Proof.
  unfold Discriminator_n_layers_branch.
  destruct (n_layers self) as [| [| k]].
  - run_setup. rewrite jnp_min_raises. reflexivity.
  - run_setup. rewrite jnp_min_raises. reflexivity.
  - unfold range2. replace (S (S k) - 1)%nat with (S k) by lia.
    cbn [seq for_each]. rewrite jnp_min_raises. reflexivity.
Qed.

Lemma Discriminator_setup_raises (self : Discriminator) :
  Discriminator_setup self = Err ValueError.
Proof.
  unfold Discriminator_setup.
  rewrite n_layers_test_truthy, Discriminator_n_layers_branch_raises.
  reflexivity.
Qed.

(** C7 (defect in the code).  For every configuration, whatever its
    architecture name: the first branch of [setup] is the one taken, [setup]
    does not raise [NotImplementedError], and what it raises is the
    [ValueError] of the N-layer branch.  An unrecognized name is never
    flagged as not implemented. *)
Theorem Discriminator_setup_never_not_implemented (self : Discriminator) :
  truthy (n_layers_test self) = true
  /\ Discriminator_setup self <> Err NotImplementedError
  /\ Discriminator_setup self = Discriminator_setup (discriminator_of "n_layers").
Proof.
  split; [ apply n_layers_test_truthy | ].
  rewrite !Discriminator_setup_raises. split; [ discriminate | reflexivity ].
Qed.

Example Discriminator_setup_unrecognized :
  Discriminator_setup (discriminator_of "resnet") = Err ValueError.
Proof. reflexivity. Qed.

(** C8 (defect in the code).  For every base filter count and every number
    of layers, no filter-count multiplier is computed: [jnp.min(2**n, 8)]
    takes 8 as the axis of a reduction over a number and raises, for every
    [n], so the N-layer branch raises before it builds a convolution with a
    multiplied channel count. *)
Theorem Discriminator_nf_mult_raises (self : Discriminator) (n : nat) :
  jnp_min (2 ^ Z.of_nat n) 8 = Err ValueError
  /\ Discriminator_n_layers_branch self false = Err ValueError.
Proof.
  split; [ apply jnp_min_raises | apply Discriminator_n_layers_branch_raises ].
Qed.

Example Discriminator_setup_default :
  Discriminator_setup (discriminator_of "n_layers") = Err ValueError.
Proof. reflexivity. Qed.

(** C9 (defect in the code).  A discriminator configured with the name
    ["pixel"] does not build the 1x1 pipeline and returns no prediction map:
    the first branch of [setup] is taken as for every other name, so
    [setup], when it is run, raises in the N-layer branch; and calling the
    instance the constructor builds raises [AttributeError], since no
    [self.model] was assigned. *)
Theorem Discriminator_pixel_not_built (self : Discriminator) (input : shape) :
  netD self = "pixel" ->
  truthy (n_layers_test self) = true
  /\ Discriminator_setup self
     = (sequence <- Discriminator_n_layers_branch self false ;; Ok (Some sequence))
  /\ Discriminator_setup self = Err ValueError
  /\ Discriminator_call
       (Discriminator_init (ndf self) (netD self) (n_layers self) (norm self)
          (init_type self) (init_gain self)) input
     = Err AttributeError.
Proof.
  intros Hname. split; [ apply n_layers_test_truthy | ]. split.
  - unfold Discriminator_setup. rewrite n_layers_test_truthy. reflexivity.
  - split; [ apply Discriminator_setup_raises | reflexivity ].
Qed.

Lemma Discriminator_pixel_not_built_witness :
  netD (discriminator_of "pixel") = "pixel"
  /\ Discriminator_setup (discriminator_of "pixel") = Err ValueError
  /\ Discriminator_call
       (Discriminator_init 64 "pixel" 3 "batch" "normal" (2 # 100))
       (NHWC 1 32 32 3)
     = Err AttributeError.
Proof.
  split; [ reflexivity | ].
  destruct (Discriminator_pixel_not_built (discriminator_of "pixel") (NHWC 1 32 32 3))
    as [_ [_ [Hs Hc]]]; [ reflexivity | ].
  split; [ exact Hs | exact Hc ].
Defined.

(** The per-pixel branch, were it reached, raises as well: its first
    convolution is constructed with the keyword [stride], which is not a
    field of [nn.Conv]. *)
Lemma Discriminator_pixel_branch_raises (self : Discriminator) (use_bias : bool) :
  Discriminator_pixel_branch self use_bias = Err TypeError.
Proof. reflexivity. Qed.

(** ** GanLoss *)

Section GanLossProperties.
Local Open Scope R_scope.

Lemma py_in_In (s : string) (l : list string) : py_in s l = true <-> In s l.
Proof.
  unfold py_in. rewrite existsb_exists. split.
  - intros [x [Hin Heq]]. apply String.eqb_eq in Heq. now subst x.
  - intros Hin. exists s. split; [ assumption | apply String.eqb_refl ].
Qed.

Lemma zip_with_length (f : R -> R -> R) (a b : list R) :
  List.length a = List.length b ->
  List.length (zip_with f a b) = List.length a.
Proof.
  revert b. induction a as [| x a IH]; intros [| y b] Hlen; cbn in *;
    try reflexivity; try discriminate.
  f_equal. apply IH. now injection Hlen.
Qed.

Lemma zip_with_ext (f g : R -> R -> R) (a b : list R) :
  (forall x y, f x y = g x y) -> zip_with f a b = zip_with g a b.
Proof.
  intros Hfg. revert b. induction a as [| x a IH]; intros [| y b]; cbn;
    try reflexivity.
  now rewrite Hfg, IH.
Qed.

Lemma map_zip_with (g : R -> R) (f : R -> R -> R) (a b : list R) :
  map g (zip_with f a b) = zip_with (fun x y => g (f x y)) a b.
Proof.
  revert b. induction a as [| x a IH]; intros [| y b]; cbn; try reflexivity.
  now rewrite IH.
Qed.

Lemma Rsum_zip_with_diag (a : list R) :
  Rsum (zip_with (fun x y => (x - y) * (x - y)) a a) = 0.
Proof.
  induction a as [| x a IH]; cbn; [ reflexivity | ].
  unfold Rsum in IH. rewrite IH. ring.
Qed.

(** The target tensor has the shape of the prediction and holds the label at
    every entry. *)
Lemma get_target_tensor_shape (self : GanLoss) (p : tensor) (b : bool) :
  tshape (get_target_tensor self p b) = tshape p.
Proof. reflexivity. Qed.

Lemma get_target_tensor_data (self : GanLoss) (p : tensor) (b : bool) :
  data (get_target_tensor self p b)
  = repeat (if b then target_real_label self else target_fake_label self)
           (List.length (data p)).
Proof.
  unfold get_target_tensor, scalar_mul, tmap, jnp_ones_like. cbn [data].
  induction (data p) as [| x l IH]; cbn; [ reflexivity | ].
  rewrite IH. f_equal. ring.
Qed.

Lemma get_target_tensor_length (self : GanLoss) (p : tensor) (b : bool) :
  List.length (data (get_target_tensor self p b)) = List.length (data p).
Proof. rewrite get_target_tensor_data. apply repeat_length. Qed.

(** The three dispatch tests of [__call__], mode by mode. *)
Lemma GanLoss_call_lsgan (self : GanLoss) (p : tensor) (b : bool) :
  gan_mode self = "lsgan"%string ->
  GanLoss_call self p b
  = Ok (jnp_mean (tsquare (tsub p (get_target_tensor self p b)))).
Proof. intros Hm. unfold GanLoss_call. rewrite Hm. reflexivity. Qed.

Lemma GanLoss_call_wgangp (self : GanLoss) (p : tensor) (b : bool) :
  gan_mode self = "wgangp"%string ->
  GanLoss_call self p b
  = Ok (if b then num_neg (jnp_mean p) else jnp_mean p).
Proof.
  intros Hm. unfold GanLoss_call. rewrite Hm. destruct b; reflexivity.
Qed.

Lemma vanila_entries (xs zs : list R) :
  zip_with Rplus
    (zip_with Rplus (zip_with Rminus xs (zip_with Rmult xs zs))
       (map (fun x => Rmax x 0) (map Ropp xs)))
    (map ln
       (zip_with Rplus
          (map exp (map Ropp (map (fun x => Rmax x 0) (map Ropp xs))))
          (map exp
             (zip_with Rminus (map Ropp xs)
                (map (fun x => Rmax x 0) (map Ropp xs))))))
  = zip_with vanila_entry xs zs.
Proof.
  revert zs. induction xs as [| x xs IH]; intros [| z zs]; cbn;
    try reflexivity.
  f_equal. apply IH.
Qed.

Lemma GanLoss_call_vanila (self : GanLoss) (p : tensor) (b : bool) :
  gan_mode self = "vanila"%string ->
  GanLoss_call self p b
  = Ok (mean_list (zip_with vanila_entry (data p)
                     (data (get_target_tensor self p b)))).
Proof.
  intros Hm. unfold GanLoss_call. rewrite Hm.
  change (py_in "vanila" ["lsgan"%string]) with false.
  change (py_in "vanila" ["vanila"%string]) with true.
  cbv iota zeta.
  destruct (shape_eq_dec (tshape (get_target_tensor self p b)) (tshape p))
    as [_ | Hne]; [ | exfalso; apply Hne; reflexivity ].
  cbn [bind]. do 2 f_equal.
  unfold jnp_mean, vanila_max_val, tadd, tsub, tmul, tneg, jnp_log, jnp_exp,
    jnp_clip_min, tzip, tmap. cbn [data].
  f_equal. apply vanila_entries.
Qed.

(** The stabilised entry equals binary cross-entropy with logits: with
    [max_val = max(-x, 0)], [x + max_val] is [max(x, 0)] and the logarithm is
    [log(1 + exp(-|x|))]. *)
Lemma vanila_entry_bce (x z : R) : vanila_entry x z = bce_with_logits x z.
Proof.
  unfold vanila_entry, bce_with_logits.
  destruct (Rle_lt_dec 0 x) as [Hpos | Hneg].
  - rewrite (Rmax_right (- x) 0) by lra.
    rewrite (Rmax_left x 0) by lra.
    rewrite (Rabs_pos_eq x) by assumption.
    rewrite Ropp_0, exp_0.
    replace (- x - 0) with (- x) by ring. ring.
  - rewrite (Rmax_left (- x) 0) by lra.
    rewrite (Rmax_right x 0) by lra.
    rewrite (Rabs_left x) by assumption.
    rewrite Ropp_involutive.
    replace (- x - - x) with 0 by ring. rewrite exp_0.
    rewrite (Rplus_comm (exp x) 1). ring.
Qed.

Lemma mean_squared_error_mean (a b : list R) :
  mean_list (map (fun x => x ^ 2) (zip_with Rminus a b))
  = match a, b with
    | _ :: _, _ :: _ =>
        Num (Rsum (zip_with (fun x y => (x - y) * (x - y)) a b)
             / INR (List.length (zip_with Rminus a b)))
    | _, _ => NaN
    end.
Proof.
  rewrite map_zip_with.
  rewrite (zip_with_ext _ (fun x y => (x - y) * (x - y)))
    by (intros; ring).
  destruct a as [| x a], b as [| y b]; cbn [zip_with mean_list]; try reflexivity.
  do 3 f_equal. cbn [List.length]. f_equal.
  revert b. induction a as [| x' a IH]; intros [| y' b]; cbn; try reflexivity.
  f_equal. apply IH.
Qed.

(** C3 (amended).  In lsgan mode, for every prediction and flag,
    [GanLoss.__call__] returns the mean squared error between the prediction
    and the generated target tensor; and when the prediction is not empty and
    equals the target, the returned loss is 0. *)
Theorem GanLoss_lsgan_mse (self : GanLoss) (p : tensor) (b : bool) :
  gan_mode self = "lsgan"%string ->
  GanLoss_call self p b
  = Ok (mean_squared_error (data p) (data (get_target_tensor self p b)))
  /\ (data p <> [] -> p = get_target_tensor self p b ->
      GanLoss_call self p b = Ok (Num 0)).
Proof.
  intros Hm. rewrite (GanLoss_call_lsgan self p b Hm).
  assert (Hmse : jnp_mean (tsquare (tsub p (get_target_tensor self p b)))
                 = mean_squared_error (data p)
                     (data (get_target_tensor self p b))).
  { unfold jnp_mean, tsquare, tsub, tzip, tmap. cbn [data].
    rewrite mean_squared_error_mean.
    pose proof (get_target_tensor_length self p b) as Hlen.
    unfold mean_squared_error.
    destruct (data p) as [| x xs] eqn:Ep;
      destruct (data (get_target_tensor self p b)) as [| z zs] eqn:Ez;
      try reflexivity; try discriminate.
    rewrite zip_with_length by (symmetry; exact Hlen). reflexivity. }
  rewrite Hmse. split; [ reflexivity | ].
  intros Hne Heq. rewrite <- Heq. unfold mean_squared_error.
  destruct (data p) as [| x xs]; [ contradiction | ].
  rewrite Rsum_zip_with_diag. unfold Rdiv. rewrite Rmult_0_l. reflexivity.
Qed.

Lemma GanLoss_lsgan_mse_witness :
  gan_mode (gan_loss_of "lsgan") = "lsgan"%string
  /\ data (Tensor [2%nat] [1; 1]) <> []
  /\ Tensor [2%nat] [1; 1]
     = get_target_tensor (gan_loss_of "lsgan") (Tensor [2%nat] [1; 1]) true
  /\ GanLoss_call (gan_loss_of "lsgan") (Tensor [2%nat] [1; 1]) true
     = Ok (Num 0).
Proof.
  assert (Heq : Tensor [2%nat] [1; 1]
                = get_target_tensor (gan_loss_of "lsgan")
                    (Tensor [2%nat] [1; 1]) true).
  { unfold get_target_tensor, scalar_mul, tmap, jnp_ones_like. cbn.
    rewrite Rmult_1_r. reflexivity. }
  split; [ reflexivity | ]. split; [ discriminate | ]. split; [ exact Heq | ].
  apply (GanLoss_lsgan_mse (gan_loss_of "lsgan") (Tensor [2%nat] [1; 1]) true);
    [ reflexivity | discriminate | exact Heq ].
Defined.

(** C3, the claim as stated fails: the empty prediction equals its target
    tensor, and the lsgan loss on it is not 0 but not-a-number, the mean of
    an array without entries. *)
Lemma GanLoss_lsgan_empty_prediction :
  empty_prediction = get_target_tensor (gan_loss_of "lsgan") empty_prediction true
  /\ GanLoss_call (gan_loss_of "lsgan") empty_prediction true = Ok NaN
  /\ GanLoss_call (gan_loss_of "lsgan") empty_prediction true <> Ok (Num 0).
Proof.
  split; [ reflexivity | ]. split; [ reflexivity | ].
  intros H. discriminate H.
Qed.

Lemma mean_list_nil : mean_list [] = NaN.
Proof. reflexivity. Qed.

(** The mean of a list with entries is their sum divided by their number. *)
Lemma mean_list_sum (l : list R) :
  l <> [] -> mean_list l = Num (fold_right Rplus 0 l / INR (List.length l)).
Proof. destruct l; [ contradiction | reflexivity ]. Qed.

(** C4.  In wgangp mode, for every prediction [P] with entries,
    [GanLoss.__call__] returns minus the mean of [P] (the sum of the entries
    over their number) when [target_is_real] is true and the mean of [P]
    when it is false; on a prediction without entries both are not-a-number.
    The flag selects exactly one of the two: whenever the mean is not 0 the
    two results differ. *)
Theorem GanLoss_wgangp_mean (self : GanLoss) (P : tensor) :
  gan_mode self = "wgangp"%string ->
  (data P = [] ->
   GanLoss_call self P true = Ok NaN /\ GanLoss_call self P false = Ok NaN)
  /\ (data P <> [] ->
      GanLoss_call self P true
      = Ok (Num (- (fold_right Rplus 0 (data P) / INR (List.length (data P)))))
      /\ GanLoss_call self P false
         = Ok (Num (fold_right Rplus 0 (data P) / INR (List.length (data P)))))
  /\ (data P <> [] -> fold_right Rplus 0 (data P) <> 0 ->
      GanLoss_call self P true <> GanLoss_call self P false).
Proof.
  intros Hm. rewrite !(GanLoss_call_wgangp self P _ Hm). unfold jnp_mean.
  split; [ | split ].
  - intros He. rewrite He. split; reflexivity.
  - intros Hne. rewrite (mean_list_sum _ Hne). split; reflexivity.
  - intros Hne Hsum. rewrite (mean_list_sum _ Hne). cbn [num_neg].
    intros Heq. injection Heq as Heq.
    assert (Hn : INR (List.length (data P)) <> 0).
    { apply not_0_INR. destruct (data P); [ contradiction | discriminate ]. }
    apply Hsum.
    assert (Hz : fold_right Rplus 0 (data P) / INR (List.length (data P)) = 0)
      by lra.
    unfold Rdiv in Hz. apply Rmult_integral in Hz. destruct Hz as [Hz | Hz].
    + exact Hz.
    + exfalso. revert Hz. now apply Rinv_neq_0_compat.
Qed.

Lemma GanLoss_wgangp_mean_witness :
  gan_mode (gan_loss_of "wgangp") = "wgangp"%string
  /\ GanLoss_call (gan_loss_of "wgangp") (Tensor [2%nat] [1; 3]) true
     = Ok (Num (- (fold_right Rplus 0 [1; 3] / INR (List.length [1; 3]))))
  /\ GanLoss_call (gan_loss_of "wgangp") (Tensor [2%nat] [1; 3]) false
     = Ok (Num (fold_right Rplus 0 [1; 3] / INR (List.length [1; 3]))).
Proof.
  split; [ reflexivity | ].
  destruct (GanLoss_wgangp_mean (gan_loss_of "wgangp") (Tensor [2%nat] [1; 3]))
    as [_ [Hval _]]; [ reflexivity | ].
  apply Hval. discriminate.
Defined.

(** The mean of the two entries 1 and 3 is 2, so the loss for a real target
    is -2. *)
Example GanLoss_wgangp_1_3 :
  GanLoss_call (gan_loss_of "wgangp") (Tensor [2%nat] [1; 3]) true
  = Ok (Num (- 2)).
Proof.
  rewrite GanLoss_call_wgangp by reflexivity.
  unfold jnp_mean, mean_list, num_neg, Rsum. cbn. do 2 f_equal. lra.
Qed.







(** The body of [__call__] raises nothing but [UnboundLocalError], and that
    only when no branch assigns [loss_value]. *)
Lemma GanLoss_call_cases (self : GanLoss) (p : tensor) (b : bool) :
  (exists v, GanLoss_call self p b = Ok v)
  \/ GanLoss_call self p b = Err UnboundLocalError.
Proof.
  unfold GanLoss_call.
  destruct (py_in (gan_mode self) ["lsgan"%string]);
    destruct (py_in (gan_mode self) ["vanila"%string]);
    destruct (py_in (gan_mode self) ["wgangp"%string]);
    try (destruct (shape_eq_dec (tshape (get_target_tensor self p b)) (tshape p))
           as [_ | Hne]; [ | exfalso; apply Hne; reflexivity ]);
    try destruct b; cbn [bind]; eauto.
Qed.

(** [setup] lets exactly the three strings of the source through. *)
Lemma GanLoss_setup_recognizes (self : GanLoss) :
  (In (gan_mode self) ["lsgan"; "vanila"; "wgangp"]%string ->
   GanLoss_setup self = Ok tt)
  /\ (~ In (gan_mode self) ["lsgan"; "vanila"; "wgangp"]%string ->
      GanLoss_setup self = Err NotImplementedError).
Proof.
  unfold GanLoss_setup. split; intros H.
  - apply py_in_In in H. now rewrite H.
  - destruct (py_in (gan_mode self) ["lsgan"; "vanila"; "wgangp"]%string)
      eqn:E; [ | reflexivity ].
    apply py_in_In in E. contradiction.
Qed.

(** C6 (defect in the code).  Constructing [GanLoss] raises [TypeError] for
    every mode, recognized or not, and for every pair of labels: the first
    statement of [__init__] is [super(self).__init__()].  So construction
    never raises [NotImplementedError], and it never yields an instance on
    which [setup] could validate the mode or succeed. *)
Theorem GanLoss_init_raises (mode : string) (real_label fake_label : R) :
  GanLoss_init mode real_label fake_label = Err TypeError
  /\ GanLoss_init mode real_label fake_label <> Err NotImplementedError
  /\ forall self, GanLoss_init mode real_label fake_label <> Ok self.
Proof.
  unfold GanLoss_init. cbn [py_super bind].
  split; [ reflexivity | ]. split; [ discriminate | ].
  intros self. discriminate.
Qed.

Example GanLoss_init_lsgan_and_unknown :
  GanLoss_init "lsgan" 1 0 = Err TypeError
  /\ GanLoss_init "hinge" 1 0 = Err TypeError.
Proof. split; reflexivity. Qed.

(** The three recognized modes are the strings of the source; the usual
    spelling ["vanilla"] is not among them. *)
Example GanLoss_setup_modes :
  GanLoss_setup (gan_loss_of "lsgan") = Ok tt
  /\ GanLoss_setup (gan_loss_of "vanila") = Ok tt
  /\ GanLoss_setup (gan_loss_of "wgangp") = Ok tt
  /\ GanLoss_setup (gan_loss_of "vanilla") = Err NotImplementedError.
Proof. repeat split. Qed.

(** C10.  For every prediction and flag, [get_target_tensor] returns a
    tensor of exactly the prediction's shape, holding the chosen label at
    every entry; consequently [__call__] never raises the [ValueError] of the
    shape test, in vanilla mode or any other. *)
Theorem get_target_tensor_like_prediction (self : GanLoss) (p : tensor) (b : bool) :
  tshape (get_target_tensor self p b) = tshape p
  /\ data (get_target_tensor self p b)
     = repeat (if b then target_real_label self else target_fake_label self)
              (List.length (data p))
  /\ GanLoss_call self p b <> Err ValueError.
Proof.
  split; [ apply get_target_tensor_shape | ].
  split; [ apply get_target_tensor_data | ].
  destruct (GanLoss_call_cases self p b) as [[v Hv] | He].
  - rewrite Hv. discriminate.
  - rewrite He. discriminate.
Qed.

End GanLossProperties.

(** * Further properties of the code *)

(** ** Generator as callers see it *)


(** ** GanLoss beyond the three dispatch equations *)

Section GanLossFurther.
Local Open Scope R_scope.

Lemma tensor_eta (t : tensor) : t = Tensor (tshape t) (data t).
Proof. destruct t; reflexivity. Qed.

Lemma zip_with_repeat_r (f : R -> R -> R) (xs : list R) (z : R) :
  zip_with f xs (repeat z (List.length xs)) = map (fun x => f x z) xs.
Proof. induction xs as [| x xs IH]; cbn; [ reflexivity | now rewrite IH ]. Qed.

Lemma Rsum_repeat (v : R) (n : nat) : Rsum (repeat v n) = INR n * v.
Proof.
  induction n as [| n IH]; [ cbn; ring | ].
  rewrite S_INR. cbn [repeat Rsum fold_right]. unfold Rsum in IH.
  rewrite IH. ring.
Qed.

(** The lsgan loss as a mean squared error, for use below. *)
Lemma GanLoss_call_lsgan_value (self : GanLoss) (p : tensor) (b : bool) :
  gan_mode self = "lsgan"%string ->
  GanLoss_call self p b
  = Ok (mean_squared_error (data p) (data (get_target_tensor self p b))).
Proof.
  intros Hm. rewrite (GanLoss_call_lsgan self p b Hm). f_equal.
  unfold jnp_mean, tsquare, tsub, tzip, tmap. cbn [data].
  rewrite mean_squared_error_mean.
  pose proof (get_target_tensor_length self p b) as Hlen.
  unfold mean_squared_error.
  destruct (data p) as [| x xs] eqn:Ep;
    destruct (data (get_target_tensor self p b)) as [| z zs] eqn:Ez;
    try reflexivity; try discriminate.
  rewrite zip_with_length by (symmetry; exact Hlen). reflexivity.
Qed.

(** X4.  Calling [__call__] with a mode outside the three recognized
    strings (that is, without the check of [setup]) assigns no loss and
    raises [UnboundLocalError]. *)
Theorem GanLoss_call_unrecognized_mode (self : GanLoss) (p : tensor) (b : bool) :
  ~ In (gan_mode self) ["lsgan"; "vanila"; "wgangp"]%string ->
  GanLoss_call self p b = Err UnboundLocalError.
Proof.
  intros Hnot. unfold GanLoss_call.
  destruct (py_in (gan_mode self) ["lsgan"%string]) eqn:E1.
  { apply py_in_In in E1. exfalso. apply Hnot. cbn in *. tauto. }
  destruct (py_in (gan_mode self) ["vanila"%string]) eqn:E2.
  { apply py_in_In in E2. exfalso. apply Hnot. cbn in *. tauto. }
  destruct (py_in (gan_mode self) ["wgangp"%string]) eqn:E3.
  { apply py_in_In in E3. exfalso. apply Hnot. cbn in *. tauto. }
  reflexivity.
Qed.

Lemma GanLoss_call_unrecognized_mode_witness :
  ~ In (gan_mode (gan_loss_of "vanilla")) ["lsgan"; "vanila"; "wgangp"]%string
  /\ GanLoss_call (gan_loss_of "vanilla") (Tensor [1%nat] [0]) true
     = Err UnboundLocalError.
Proof.
  assert (Hnot : ~ In (gan_mode (gan_loss_of "vanilla"))
                     ["lsgan"; "vanila"; "wgangp"]%string).
  { cbn. intros [H | [H | [H | []]]]; discriminate H. }
  split; [ exact Hnot | ].
  apply (GanLoss_call_unrecognized_mode
           (gan_loss_of "vanilla") (Tensor [1%nat] [0]) true).
  exact Hnot.
Defined.

Lemma zip_with_repeat (f : R -> R -> R) (c l : R) (k : nat) :
  zip_with f (repeat c k) (repeat l k) = repeat (f c l) k.
Proof. induction k as [| k IH]; cbn; [ reflexivity | now rewrite IH ]. Qed.

Lemma mean_squared_error_repeat (c l : R) (n : nat) :
  mean_squared_error (repeat c (S n)) (repeat l (S n)) = Num ((c - l) ^ 2).
Proof.
  unfold mean_squared_error.
  rewrite zip_with_repeat, Rsum_repeat, repeat_length.
  cbn [repeat]. f_equal. field. apply not_0_INR. discriminate.
Qed.

(** X7.  In lsgan mode, a prediction whose entries all equal [c] (and that
    has at least one) has loss [(c - label)^2], the label being the one the
    flag selects. *)
Theorem GanLoss_lsgan_constant (self : GanLoss) (p : tensor) (b : bool)
  (c : R) (n : nat) :
  gan_mode self = "lsgan"%string ->
  data p = repeat c (S n) ->
  GanLoss_call self p b
  = Ok (Num ((c - (if b then target_real_label self
                   else target_fake_label self)) ^ 2)).
Proof.
  intros Hm Hp. rewrite (GanLoss_call_lsgan_value self p b Hm).
  rewrite get_target_tensor_data, Hp, repeat_length.
  rewrite mean_squared_error_repeat. reflexivity.
Qed.

Lemma GanLoss_lsgan_constant_witness :
  GanLoss_call (gan_loss_of "lsgan") (Tensor [3%nat] [4; 4; 4]) true
  = Ok (Num ((4 - 1) ^ 2)).
Proof.
  apply (GanLoss_lsgan_constant
           (gan_loss_of "lsgan") (Tensor [3%nat] [4; 4; 4]) true 4 2).
  - reflexivity.
  - reflexivity.
Defined.

(** [y + log(1 + exp(-y)) = log(1 + exp(y))]. *)
Lemma softplus_shift (y : R) : y + ln (1 + exp (- y)) = ln (1 + exp y).
Proof.
  assert (Hpos : 0 < 1 + exp (- y)) by (pose proof (exp_pos (- y)); lra).
  assert (Hprod : exp y * (1 + exp (- y)) = 1 + exp y).
  { rewrite Rmult_plus_distr_l, <- exp_plus, Rplus_opp_r, exp_0. ring. }
  rewrite <- Hprod, ln_mult by (assumption || apply exp_pos).
  rewrite ln_exp. reflexivity.
Qed.

Lemma vanila_entry_label_1 (x : R) : vanila_entry x 1 = ln (1 + exp (- x)).
Proof.
  rewrite vanila_entry_bce. unfold bce_with_logits.
  destruct (Rle_lt_dec 0 x) as [Hpos | Hneg].
  - rewrite (Rmax_left x 0) by lra. rewrite (Rabs_pos_eq x) by assumption.
    ring.
  - rewrite (Rmax_right x 0) by lra. rewrite (Rabs_left x) by assumption.
    rewrite <- (softplus_shift (- x)). ring.
Qed.

Lemma vanila_entry_label_0 (x : R) : vanila_entry x 0 = ln (1 + exp x).
Proof.
  rewrite vanila_entry_bce. unfold bce_with_logits.
  destruct (Rle_lt_dec 0 x) as [Hpos | Hneg].
  - rewrite (Rmax_left x 0) by lra. rewrite (Rabs_pos_eq x) by assumption.
    rewrite <- (softplus_shift x). ring.
  - rewrite (Rmax_right x 0) by lra. rewrite (Rabs_left x) by assumption.
    rewrite Ropp_involutive. ring.
Qed.

Lemma GanLoss_call_vanila_label (self : GanLoss) (p : tensor) (b : bool) :
  gan_mode self = "vanila"%string ->
  GanLoss_call self p b
  = Ok (mean_list
          (map (fun x => vanila_entry x (if b then target_real_label self
                                         else target_fake_label self))
               (data p))).
Proof.
  intros Hm. rewrite (GanLoss_call_vanila self p b Hm).
  rewrite get_target_tensor_data, zip_with_repeat_r. reflexivity.
Qed.

(** X9.  In vanilla mode with the default labels, the loss for a real target
    (label 1) is the mean of [log(1 + exp(-x))] over the entries [x] of the
    prediction, and the loss for a fake target (label 0) is the mean of
    [log(1 + exp(x))]. *)
Theorem GanLoss_vanila_softplus (self : GanLoss) (p : tensor) :
  gan_mode self = "vanila"%string ->
  target_real_label self = 1 -> target_fake_label self = 0 ->
  GanLoss_call self p true
  = Ok (mean_list (map (fun x => ln (1 + exp (- x))) (data p)))
  /\ GanLoss_call self p false
     = Ok (mean_list (map (fun x => ln (1 + exp x)) (data p))).
Proof.
  intros Hm Hr Hf. rewrite !(GanLoss_call_vanila_label self p _ Hm).
  rewrite Hr, Hf. split; do 2 f_equal; apply map_ext; intros x.
  - apply vanila_entry_label_1.
  - apply vanila_entry_label_0.
Qed.

Lemma GanLoss_vanila_softplus_witness :
  GanLoss_call (gan_loss_of "vanila") (Tensor [2%nat] [2; -1]) true
  = Ok (mean_list (map (fun x => ln (1 + exp (- x))) [2; -1])).
Proof.
  apply (GanLoss_vanila_softplus (gan_loss_of "vanila") (Tensor [2%nat] [2; -1]));
    reflexivity.
Defined.

(** X12.  The target tensor depends on the prediction only through its
    shape and its number of entries, never through its values. *)
Theorem get_target_tensor_ignores_values (self : GanLoss) (p q : tensor) (b : bool) :
  tshape p = tshape q -> List.length (data p) = List.length (data q) ->
  get_target_tensor self p b = get_target_tensor self q b.
Proof.
  intros Hs Hl.
  rewrite (tensor_eta (get_target_tensor self p b)).
  rewrite (tensor_eta (get_target_tensor self q b)).
  rewrite !get_target_tensor_shape, !get_target_tensor_data, Hs, Hl.
  reflexivity.
Qed.

Lemma get_target_tensor_ignores_values_witness :
  get_target_tensor (gan_loss_of "lsgan") (Tensor [2%nat] [7; -3]) true
  = get_target_tensor (gan_loss_of "lsgan") (Tensor [2%nat] [0; 100]) true.
Proof.
  apply (get_target_tensor_ignores_values (gan_loss_of "lsgan")
           (Tensor [2%nat] [7; -3]) (Tensor [2%nat] [0; 100]) true);
    reflexivity.
Defined.

Lemma softplus_monotone (x y : R) : x <= y -> ln (1 + exp x) <= ln (1 + exp y).
Proof.
  intros [Hlt | Heq]; [ | subst; lra ].
  left. apply ln_increasing.
  - pose proof (exp_pos x). lra.
  - pose proof (exp_increasing x y Hlt). lra.
Qed.

Lemma Rsum_map_monotone (f : R -> R) (xs ys : list R) :
  (forall x y, x <= y -> f x <= f y) ->
  Forall2 Rle xs ys -> Rsum (map f xs) <= Rsum (map f ys).
Proof.
  intros Hf H. unfold Rsum. induction H as [| x y xs ys Hxy _ IH]; cbn.
  - lra.
  - pose proof (Hf x y Hxy). lra.
Qed.

(** X13.  In vanilla mode with the default labels, raising entries of the
    prediction never raises the loss for a real target and never lowers the
    loss for a fake target: for predictions [p <= q] entry by entry, with at
    least one entry, [loss(q, real) <= loss(p, real)] and
    [loss(p, fake) <= loss(q, fake)]. *)
Theorem GanLoss_vanila_monotone (self : GanLoss) (p q : tensor) :
  gan_mode self = "vanila"%string ->
  target_real_label self = 1 -> target_fake_label self = 0 ->
  data p <> [] -> Forall2 Rle (data p) (data q) ->
  exists rp rq fp fq,
    GanLoss_call self p true = Ok (Num rp)
    /\ GanLoss_call self q true = Ok (Num rq)
    /\ GanLoss_call self p false = Ok (Num fp)
    /\ GanLoss_call self q false = Ok (Num fq)
    /\ rq <= rp /\ fp <= fq.
Proof.
  intros Hm Hr Hf Hne Hle.
  rewrite !(GanLoss_call_vanila_label self _ _ Hm), Hr, Hf.
  pose proof (Forall2_length Hle) as Hlen.
  assert (Hfake : Rsum (map (fun x => vanila_entry x 0) (data p))
                  <= Rsum (map (fun x => vanila_entry x 0) (data q))).
  { apply Rsum_map_monotone; [ | exact Hle ].
    intros x y Hxy. rewrite !vanila_entry_label_0.
    now apply softplus_monotone. }
  assert (Hreal : Rsum (map (fun x => vanila_entry x 1) (data q))
                  <= Rsum (map (fun x => vanila_entry x 1) (data p))).
  { assert (H : Rsum (map (fun x => - vanila_entry x 1) (data p))
                <= Rsum (map (fun x => - vanila_entry x 1) (data q))).
    { apply Rsum_map_monotone; [ | exact Hle ].
      intros x y Hxy. rewrite !vanila_entry_label_1.
      assert (- y <= - x) by lra.
      pose proof (softplus_monotone (- y) (- x)). lra. }
    assert (Hneg : forall l, Rsum (map (fun x => - vanila_entry x 1) l)
                             = - Rsum (map (fun x => vanila_entry x 1) l)).
    { intros l. unfold Rsum. induction l as [| a l IH]; cbn; [ lra | ].
      rewrite IH. ring. }
    rewrite !Hneg in H. lra. }
  destruct (data p) as [| x xs]; [ contradiction | ].
  destruct (data q) as [| y ys]; [ discriminate | ].
  cbn [map mean_list List.length] in *. rewrite !length_map.
  do 4 eexists. repeat (split; [ reflexivity | ]).
  injection Hlen as Hlen. rewrite <- Hlen.
  assert (Hn : 0 < / INR (S (List.length xs)))
    by (apply Rinv_0_lt_compat, lt_0_INR; lia).
  unfold Rdiv. split; apply Rmult_le_compat_r; lra.
Qed.

Lemma GanLoss_vanila_monotone_witness :
  exists rp rq fp fq,
    GanLoss_call (gan_loss_of "vanila") (Tensor [2%nat] [0; 1]) true = Ok (Num rp)
    /\ GanLoss_call (gan_loss_of "vanila") (Tensor [2%nat] [2; 1]) true = Ok (Num rq)
    /\ GanLoss_call (gan_loss_of "vanila") (Tensor [2%nat] [0; 1]) false = Ok (Num fp)
    /\ GanLoss_call (gan_loss_of "vanila") (Tensor [2%nat] [2; 1]) false = Ok (Num fq)
    /\ rq <= rp /\ fp <= fq.
Proof.
  apply (GanLoss_vanila_monotone (gan_loss_of "vanila")
           (Tensor [2%nat] [0; 1]) (Tensor [2%nat] [2; 1])).
  - reflexivity.
  - reflexivity.
  - reflexivity.
  - discriminate.
  - cbn. repeat constructor; lra.
Defined.

End GanLossFurther.
